(** * get_polymarket_keys.py: the credential-derivation script

    The script builds a [ClobClient], asks it once for the API credentials
    bound to a hard-coded signing key and prints them twice as
    [KEY=VALUE] lines.  The client library (py_clob_client) and the remote
    venue behind it are a black box: they are a parameter of the model.
    What the script itself does (the order of its statements, the text it
    prints, where an exception stops it) is embedded statement by
    statement. *)

From Stdlib Require Import String Ascii List ZArith Bool Arith Lia.
Import ListNotations.

Open Scope string_scope.

(** ** Python values the script handles *)

(** An exception raised by the client library and not caught by the
    script (the script has no [try]). *)
Record PyExc : Type := mkExc { exc_type : string; exc_msg : string }.

(** Outcome of a Python call: a value, or a raised exception. *)
Inductive Result (A : Type) : Type :=
| Ok (a : A)
| Raise (e : PyExc).
Arguments Ok {A} a.
Arguments Raise {A} e.

(** [creds]: the object returned by [create_or_derive_api_creds]; the
    script reads its three string attributes. *)
Record ApiCreds : Type := mkCreds {
  api_key : string;
  api_secret : string;
  api_passphrase : string
}.

(** The client object, as built by
    [ClobClient(host=..., chain_id=..., key=...)]. *)
Record ClobClient : Type := mkClient {
  client_host : string;
  client_chain_id : Z;
  client_key : string
}.

(** What a run does that can be observed from outside, in order. *)
Inductive Event : Type :=
| Out (text : string)            (* characters sent to sys.stdout *)
| Construct (c : ClobClient)     (* ClobClient(...) was called *)
| Derive (c : ClobClient).       (* c.create_or_derive_api_creds() was called *)

(** The line feed, written [\n] in the Python source. *)
Definition LF : string := String "010"%char EmptyString.

(** ** The client library, a parameter

    [W] is whatever the library and the remote venue keep between calls.
    Both calls of the script go into the library, so both may raise. *)
Record ClobLibrary (W : Type) : Type := mkLibrary {
  lib_init : ClobClient -> W -> Result unit * W;
  lib_create_or_derive : ClobClient -> W -> Result ApiCreds * W
}.
Arguments lib_init {W} _ _ _.
Arguments lib_create_or_derive {W} _ _ _.

(** ** The interpreter state and the monad of statements *)

Record World (W : Type) : Type := mkWorld {
  venue : W;
  trace : list Event
}.
Arguments mkWorld {W} _ _.
Arguments venue {W} _.
Arguments trace {W} _.

Definition Py (W A : Type) : Type := World W -> Result A * World W.

Definition ret {W A} (a : A) : Py W A := fun s => (Ok a, s).

(** Sequencing: an exception in the first statement skips the rest. *)
Definition bind {W A B} (m : Py W A) (k : A -> Py W B) : Py W B :=
  fun s =>
    match m s with
    | (Ok a, s') => k a s'
    | (Raise e, s') => (Raise e, s')
    end.

Notation "x <- m ;; k" := (bind m (fun x => k))
  (at level 61, m at next level, right associativity).
Notation "m ;; k" := (bind m (fun _ => k))
  (at level 61, right associativity).

Definition emit {W} (ev : Event) : Py W unit :=
  fun s => (Ok tt, mkWorld (venue s) (trace s ++ [ev])).

(** [print(x)]: the text, then the line terminator. *)
Definition print {W} (x : string) : Py W unit := emit (Out (x ++ LF)).

(** Lift a library call: run it on the venue state, keep its outcome. *)
Definition call {W A} (f : W -> Result A * W) : Py W A :=
  fun s => let (r, w') := f (venue s) in (r, mkWorld w' (trace s)).

Section Script.

Context {W : Type}.
Variable lib : ClobLibrary W.

(** [ClobClient(host=h, chain_id=c, key=k)] *)
Definition new_ClobClient (h : string) (c : Z) (k : string) : Py W ClobClient :=
  let client := mkClient h c k in
  emit (Construct client) ;;
  call (lib_init lib client) ;;
  ret client.

(** [client.create_or_derive_api_creds()] *)
Definition create_or_derive_api_creds (client : ClobClient) : Py W ApiCreds :=
  emit (Derive client) ;;
  call (lib_create_or_derive lib client).

(** Line 5 and line 6. *)
Definition private_key : string :=
  "0x4c114c6fe82b4f9ddd47a9d94d2eb2fe4ad1842a54b8434b4bc50eb9109ca70a".
Definition chain_id : Z := 137.

(** Lines 15 to 17: the first rendering of the credentials.  The third
    f-string ends in [\n], so a blank line follows the block. *)
Definition presentCredentials (creds : ApiCreds) : Py W unit :=
  print ("POLYMARKET_API_KEY=" ++ api_key creds) ;;
  print ("POLYMARKET_SECRET=" ++ api_secret creds) ;;
  print ("POLYMARKET_PASSPHRASE=" ++ api_passphrase creds ++ LF).

(** Lines 20 to 22: the second rendering, without the trailing [\n]. *)
Definition presentCredentials_again (creds : ApiCreds) : Py W unit :=
  print ("POLYMARKET_API_KEY=" ++ api_key creds) ;;
  print ("POLYMARKET_SECRET=" ++ api_secret creds) ;;
  print ("POLYMARKET_PASSPHRASE=" ++ api_passphrase creds).

(** Lines 9 and 12 with the script's constants as arguments: the two
    library calls that obtain the credentials. *)
Definition deriveCredentials (signingKey : string) (networkId : Z)
    (endpoint : string) : Py W ApiCreds :=
  client <- new_ClobClient endpoint networkId signingKey ;;
  create_or_derive_api_creds client.

(** The module body, lines 8 to 22. *)
Definition main : Py W unit :=
  print "[*] Connecting to Polymarket CLOB..." ;;
  client <- new_ClobClient "https://clob.polymarket.com" chain_id private_key ;;
  print "[*] Deriving API credentials..." ;;
  creds <- create_or_derive_api_creds client ;;
  print (LF ++ "SUCCESS! Your Polymarket CLOB credentials:" ++ LF) ;;
  presentCredentials creds ;;
  print "Update your .env.local file with:" ;;
  presentCredentials_again creds.

End Script.

(** ** Running the script as a process *)

(** Everything written to standard output, in order. *)
Fixpoint stdout_of (t : list Event) : string :=
  match t with
  | [] => ""
  | Out x :: t' => x ++ stdout_of t'
  | _ :: t' => stdout_of t'
  end.

(** How many times the derive call was issued. *)
Fixpoint derive_calls (t : list Event) : nat :=
  match t with
  | [] => 0
  | Derive _ :: t' => S (derive_calls t')
  | _ :: t' => derive_calls t'
  end.

(** The report CPython prints for an uncaught exception: the header and
    the final [Type: message] line (the stack frames in between are left
    out). *)
Definition traceback (e : PyExc) : string :=
  "Traceback (most recent call last):" ++ LF
  ++ exc_type e ++ ": " ++ exc_msg e ++ LF.

Record Process : Type := mkProcess {
  stdout : string;
  stderr : string;
  exit_code : Z;
  events : list Event
}.

(** [python get_polymarket_keys.py] against a library in state [w]: a
    module body that ends normally exits with status 0; an uncaught
    exception is reported on standard error and the status is 1. *)
Definition run_script {W} (lib : ClobLibrary W) (w : W) : Process :=
  match main lib (mkWorld w []) with
  | (Ok _, s) => mkProcess (stdout_of (trace s)) "" 0 (trace s)
  | (Raise e, s) => mkProcess (stdout_of (trace s)) (traceback e) 1 (trace s)
  end.

(** The client object of line 9. *)
Definition script_client : ClobClient :=
  mkClient "https://clob.polymarket.com" chain_id private_key.

(** ** Text utilities used to state the properties *)

(** [s.startswith(k)] *)
Fixpoint starts_with (k s : string) : bool :=
  match k, s with
  | EmptyString, _ => true
  | String _ _, EmptyString => false
  | String a k', String b s' => Ascii.eqb a b && starts_with k' s'
  end.

(** [k in s]: [k] occurs in [s] as a contiguous substring. *)
Fixpoint contains (k s : string) : bool :=
  starts_with k s ||
  match s with
  | EmptyString => false
  | String _ s' => contains k s'
  end.

(** The character [c] occurs in [s]. *)
Fixpoint occurs (c : ascii) (s : string) : bool :=
  match s with
  | EmptyString => false
  | String b s' => Ascii.eqb c b || occurs c s'
  end.

(** The lines of a text: each line feed ends a line; characters after
    the last line feed form a last, unterminated line. *)
Fixpoint lines (s : string) : list string :=
  match s with
  | EmptyString => []
  | String c s' =>
      if Ascii.eqb c "010"%char then EmptyString :: lines s'
      else match lines s' with
           | [] => [String c EmptyString]
           | l :: ls => String c l :: ls
           end
  end.

(** The text made of the given lines, each followed by a line feed. *)
Fixpoint unlines (ls : list string) : string :=
  match ls with
  | [] => ""
  | l :: ls' => l ++ LF ++ unlines ls'
  end.

Definition no_newline (s : string) : bool := negb (occurs "010"%char s).

(** A line of the form [KEY=VALUE]. *)
Definition is_key_value_line (l : string) : bool := contains "=" l.

(** The three [KEY=VALUE] lines for a credential set. *)
Definition env_lines (c : ApiCreds) : list string :=
  [ "POLYMARKET_API_KEY=" ++ api_key c;
    "POLYMARKET_SECRET=" ++ api_secret c;
    "POLYMARKET_PASSPHRASE=" ++ api_passphrase c ].

(** The lines the script prints that do not depend on the credentials. *)
Definition progress_lines : list string :=
  [ "[*] Connecting to Polymarket CLOB...";
    "[*] Deriving API credentials..." ].
Definition success_lines : list string :=
  [ ""; "SUCCESS! Your Polymarket CLOB credentials:"; "" ].
Definition update_lines : list string :=
  [ ""; "Update your .env.local file with:" ].

(** No field of the credential set contains the string [k]. *)
Definition creds_free_of (k : string) (c : ApiCreds) : bool :=
  negb (contains k (api_key c)) && negb (contains k (api_secret c))
  && negb (contains k (api_passphrase c)).

(** In the run against [lib] from [w], the credentials the library
    returns (if it returns any) do not contain [k]. *)
Definition returned_creds_free_of {W} (k : string) (lib : ClobLibrary W) (w : W)
    : bool :=
  match lib_init lib script_client w with
  | (Ok _, w1) =>
      match lib_create_or_derive lib script_client w1 with
      | (Ok c, _) => creds_free_of k c
      | (Raise _, _) => true
      end
  | (Raise _, _) => true
  end.

(** Whether [ClobClient(...)] of line 9 returns a client. *)
Definition constructed {W} (lib : ClobLibrary W) (w : W) : bool :=
  match lib_init lib script_client w with
  | (Ok _, _) => true
  | (Raise _, _) => false
  end.

(** What a block of statements writes when it starts with nothing
    written yet. *)
Definition written {W A} (m : Py W A) (w : W) : string :=
  stdout_of (trace (snd (m (mkWorld w [])))).

(** The calls into the client library, in order. *)
Fixpoint library_calls (t : list Event) : list Event :=
  match t with
  | [] => []
  | Out _ :: t' => library_calls t'
  | ev :: t' => ev :: library_calls t'
  end.

(** The exception with which the library refuses the run, if it does:
    raised by the constructor, or else by the derive call. *)
Definition library_error {W} (lib : ClobLibrary W) (w : W) : option PyExc :=
  match lib_init lib script_client w with
  | (Raise e, _) => Some e
  | (Ok _, w1) =>
      match lib_create_or_derive lib script_client w1 with
      | (Raise e, _) => Some e
      | (Ok _, _) => None
      end
  end.

(** No field of the credential set holds a line feed. *)
Definition single_line_creds (c : ApiCreds) : bool :=
  no_newline (api_key c) && no_newline (api_secret c)
  && no_newline (api_passphrase c).

(** ** Test doubles for the client library *)

Definition AuthenticationError : PyExc :=
  mkExc "AuthenticationError" "signing key rejected by the venue".
Definition NetworkError : PyExc :=
  mkExc "NetworkError" "request timed out".
Definition ConstructionError : PyExc :=
  mkExc "ValueError" "client could not be constructed".

(** A library whose two calls end the same way whatever they are given. *)
Definition scripted_lib (on_init : Result unit) (on_derive : Result ApiCreds)
    : ClobLibrary unit :=
  mkLibrary unit (fun _ w => (on_init, w)) (fun _ w => (on_derive, w)).

(** A venue that answers only on the public endpoint and chain 137. *)
Definition venue_137 (c : ApiCreds) : ClobLibrary unit :=
  mkLibrary unit
    (fun _ w => (Ok tt, w))
    (fun cl w =>
       if (client_chain_id cl =? 137)%Z
          && String.eqb (client_host cl) "https://clob.polymarket.com"
       then (Ok c, w)
       else (Raise NetworkError, w)).

(** A mock venue with create-or-derive semantics: it keeps the credential
    set issued for each signing key and hands the stored one out again. *)
Definition Store : Type := list (string * ApiCreds).

Fixpoint stored_creds (st : Store) (k : string) : option ApiCreds :=
  match st with
  | [] => None
  | (k', c) :: st' => if String.eqb k k' then Some c else stored_creds st' k
  end.

Fixpoint tally (n : nat) : string :=
  match n with
  | O => ""
  | S n' => String "1"%char (tally n')
  end.

(** The [n]-th credential set the mock venue issues. *)
Definition issue (n : nat) : ApiCreds :=
  mkCreds ("key-" ++ tally n) ("secret-" ++ tally n) ("pass-" ++ tally n).

Definition mock_venue : ClobLibrary Store :=
  mkLibrary Store
    (fun _ st => (Ok tt, st))
    (fun cl st =>
       match stored_creds st (client_key cl) with
       | Some c => (Ok c, st)
       | None =>
           let c := issue (List.length st) in
           (Ok c, (client_key cl, c) :: st)
       end).

(** A venue without that semantics: every call issues a new set. *)
Definition forgetful_venue : ClobLibrary nat :=
  mkLibrary nat (fun _ n => (Ok tt, n)) (fun _ n => (Ok (issue n), S n)).

(** * Properties *)

(** ** Strings *)

#[local] Arguments Ascii.eqb : simpl never.

Lemma append_assoc (s t u : string) : (s ++ t) ++ u = s ++ (t ++ u).
Proof.
  induction s as [|a s IH]; simpl.
  - reflexivity.
  - now rewrite IH.
Qed.

(** A line without a line feed, followed by a line feed, is the first
    line of the text. *)
Lemma lines_cons (l rest : string) :
  no_newline l = true -> lines (l ++ LF ++ rest) = l :: lines rest.
Proof.
  unfold no_newline.
  change (LF ++ rest) with (String "010"%char rest).
  induction l as [|a l IH]; simpl; intros H.
  - reflexivity.
  - rewrite Ascii.eqb_sym.
    destruct (Ascii.eqb "010" a); simpl in H; [discriminate|].
    rewrite (IH H). reflexivity.
Qed.

Lemma lines_unlines (ls : list string) :
  forallb no_newline ls = true -> lines (unlines ls) = ls.
Proof.
  induction ls as [|l ls IH]; intros H.
  - reflexivity.
  - apply andb_true_iff in H as [Hl Hls].
    change (unlines (l :: ls)) with (l ++ LF ++ unlines ls).
    rewrite (lines_cons _ _ Hl), (IH Hls). reflexivity.
Qed.

Lemma unlines_app (ls ms : list string) :
  unlines (ls ++ ms) = unlines ls ++ unlines ms.
Proof.
  induction ls as [|l ls IH]; simpl.
  - reflexivity.
  - rewrite IH, !append_assoc. reflexivity.
Qed.

(** A character that is not in [k] cuts every occurrence of [k]. *)
Lemma starts_with_cut (c : ascii) (k s1 s2 : string) :
  occurs c k = false ->
  starts_with k (s1 ++ String c s2) = starts_with k s1.
Proof.
  revert s1.
  induction k as [|a k IH]; intros s1 H.
  - destruct s1; reflexivity.
  - simpl in H. apply orb_false_iff in H as [Hc Hk].
    destruct s1 as [|b s1]; simpl.
    + rewrite Ascii.eqb_sym, Hc. reflexivity.
    + rewrite (IH s1 Hk). reflexivity.
Qed.

Lemma contains_empty (k : string) : contains k "" = starts_with k "".
Proof. simpl. apply orb_false_r. Qed.

Lemma contains_cut (c : ascii) (k s1 s2 : string) :
  occurs c k = false ->
  contains k (s1 ++ String c s2) = contains k s1 || contains k s2.
Proof.
  intros H.
  induction s1 as [|b s1 IH].
  - change ("" ++ String c s2) with (String c s2).
    rewrite contains_empty.
    change (contains k (String c s2))
      with (starts_with k (String c s2) || contains k s2).
    destruct k as [|a k]; [reflexivity|].
    simpl in H. apply orb_false_iff in H as [Hc _].
    simpl. rewrite Ascii.eqb_sym, Hc. reflexivity.
  - change (contains k (String b s1 ++ String c s2))
      with (starts_with k (String b s1 ++ String c s2)
            || contains k (s1 ++ String c s2)).
    change (contains k (String b s1))
      with (starts_with k (String b s1) || contains k s1).
    rewrite IH, (starts_with_cut c k (String b s1) s2 H).
    apply orb_assoc.
Qed.

Lemma starts_with_app (k s t : string) :
  starts_with k s = true -> starts_with k (s ++ t) = true.
Proof.
  revert s.
  induction k as [|a k IH]; intros [|b s]; simpl; try easy.
  intros H. apply andb_true_iff in H as [Hab Hk].
  rewrite Hab, (IH s Hk). reflexivity.
Qed.

(** The first line of a text is a prefix of it. *)
Lemma lines_head (s l : string) (ls : list string) :
  lines s = l :: ls -> exists rest, s = l ++ rest.
Proof.
  revert l ls.
  induction s as [|c s IH]; simpl; intros l ls H.
  - discriminate.
  - destruct (Ascii.eqb c "010").
    + injection H as <- _. exists (String c s). reflexivity.
    + destruct (lines s) as [|l' ls'] eqn:E.
      * injection H as <- _.
        destruct s as [|d s]; [exists ""; reflexivity|].
        simpl in E. destruct (Ascii.eqb d "010"); [discriminate|].
        destruct (lines s); discriminate.
      * injection H as <- _.
        destruct (IH l' ls' eq_refl) as [rest ->].
        exists rest. reflexivity.
Qed.

(** A string that does not occur in a text occurs in none of its lines. *)
Lemma contains_lines (k s : string) :
  contains k s = false ->
  Forall (fun l => contains k l = false) (lines s).
Proof.
  induction s as [|c s IH]; intros H.
  - constructor.
  - change (starts_with k (String c s) || contains k s = false) in H.
    apply orb_false_iff in H as [Hp Hs].
    specialize (IH Hs).
    simpl. destruct (Ascii.eqb c "010").
    + constructor; [|exact IH].
      rewrite contains_empty.
      destruct k; [discriminate Hp | reflexivity].
    + destruct (lines s) as [|l ls] eqn:E.
      * constructor; [|constructor].
        destruct s as [|d s].
        -- simpl. simpl in Hp. rewrite Hp.
           destruct k; [discriminate Hp | reflexivity].
        -- simpl in E. destruct (Ascii.eqb d "010"); [discriminate|].
           destruct (lines s); discriminate.
      * inversion IH as [|? ? Hl Hls]; subst.
        constructor; [|exact Hls].
        change (starts_with k (String c l) || contains k l = false).
        rewrite Hl, orb_false_r.
        destruct (lines_head s l ls E) as [rest ->].
        destruct (starts_with k (String c l)) eqn:Ep; [|reflexivity].
        pose proof (starts_with_app k (String c l) rest Ep) as Hq.
        change (String c l ++ rest) with (String c (l ++ rest)) in Hq.
        congruence.
Qed.

(** ** The three ways a run can go *)

Section Runs.

Context {W : Type}.
Variable lib : ClobLibrary W.

Lemma bind_ok {A B} (m : Py W A) (k : A -> Py W B) s a s' :
  m s = (Ok a, s') -> bind m k s = k a s'.
Proof. intros H. unfold bind. rewrite H. reflexivity. Qed.

Lemma bind_raise {A B} (m : Py W A) (k : A -> Py W B) s e s' :
  m s = (Raise e, s') -> bind m k s = (Raise e, s').
Proof. intros H. unfold bind. rewrite H. reflexivity. Qed.

(** The constructor of line 9 raises: the run stops there. *)
Lemma main_init_raises w e w1 :
  lib_init lib script_client w = (Raise e, w1) ->
  main lib (mkWorld w []) =
    (Raise e,
     mkWorld w1 [ Out ("[*] Connecting to Polymarket CLOB..." ++ LF);
                  Construct script_client ]).
Proof.
  intros H.
  unfold main, new_ClobClient, bind, print, emit, call; cbn.
  fold script_client. rewrite H. reflexivity.
Qed.

(** The derive call of line 12 raises: the run stops there. *)
Lemma main_derive_raises w w1 e w2 :
  lib_init lib script_client w = (Ok tt, w1) ->
  lib_create_or_derive lib script_client w1 = (Raise e, w2) ->
  main lib (mkWorld w []) =
    (Raise e,
     mkWorld w2 [ Out ("[*] Connecting to Polymarket CLOB..." ++ LF);
                  Construct script_client;
                  Out ("[*] Deriving API credentials..." ++ LF);
                  Derive script_client ]).
Proof.
  intros H1 H2.
  unfold main, new_ClobClient, create_or_derive_api_creds,
    bind, print, emit, call, ret; cbn.
  fold script_client. rewrite H1; cbn. rewrite H2. reflexivity.
Qed.

(** Both calls return: the run reaches its last statement. *)
Lemma main_succeeds w w1 c w2 :
  lib_init lib script_client w = (Ok tt, w1) ->
  lib_create_or_derive lib script_client w1 = (Ok c, w2) ->
  main lib (mkWorld w []) =
    (Ok tt,
     mkWorld w2
      [ Out ("[*] Connecting to Polymarket CLOB..." ++ LF);
        Construct script_client;
        Out ("[*] Deriving API credentials..." ++ LF);
        Derive script_client;
        Out (LF ++ "SUCCESS! Your Polymarket CLOB credentials:" ++ LF ++ LF);
        Out ("POLYMARKET_API_KEY=" ++ api_key c ++ LF);
        Out ("POLYMARKET_SECRET=" ++ api_secret c ++ LF);
        Out ("POLYMARKET_PASSPHRASE=" ++ api_passphrase c ++ LF ++ LF);
        Out ("Update your .env.local file with:" ++ LF);
        Out ("POLYMARKET_API_KEY=" ++ api_key c ++ LF);
        Out ("POLYMARKET_SECRET=" ++ api_secret c ++ LF);
        Out ("POLYMARKET_PASSPHRASE=" ++ api_passphrase c ++ LF) ]).
Proof.
  intros H1 H2.
  unfold main, new_ClobClient, create_or_derive_api_creds,
    presentCredentials, presentCredentials_again,
    bind, print, emit, call, ret; cbn.
  fold script_client. rewrite H1; cbn. rewrite H2; cbn.
  rewrite !append_assoc. reflexivity.
Qed.

Lemma run_init_raises w e w1 :
  lib_init lib script_client w = (Raise e, w1) ->
  run_script lib w =
    mkProcess (unlines (firstn 1 progress_lines)) (traceback e) 1
              [ Out ("[*] Connecting to Polymarket CLOB..." ++ LF);
                Construct script_client ].
Proof.
  intros H. unfold run_script. rewrite (main_init_raises _ _ _ H).
  reflexivity.
Qed.

Lemma run_derive_raises w w1 e w2 :
  lib_init lib script_client w = (Ok tt, w1) ->
  lib_create_or_derive lib script_client w1 = (Raise e, w2) ->
  run_script lib w =
    mkProcess (unlines progress_lines) (traceback e) 1
              [ Out ("[*] Connecting to Polymarket CLOB..." ++ LF);
                Construct script_client;
                Out ("[*] Deriving API credentials..." ++ LF);
                Derive script_client ].
Proof.
  intros H1 H2. unfold run_script.
  rewrite (main_derive_raises _ _ _ _ H1 H2). reflexivity.
Qed.

Lemma run_succeeds w w1 c w2 :
  lib_init lib script_client w = (Ok tt, w1) ->
  lib_create_or_derive lib script_client w1 = (Ok c, w2) ->
  stdout (run_script lib w) =
    unlines (progress_lines ++ success_lines ++ env_lines c
             ++ update_lines ++ env_lines c)
  /\ stderr (run_script lib w) = ""
  /\ exit_code (run_script lib w) = 0%Z
  /\ library_calls (events (run_script lib w)) =
       [ Construct script_client; Derive script_client ].
Proof.
  intros H1 H2. unfold run_script.
  rewrite (main_succeeds _ _ _ _ H1 H2). cbn.
  repeat split. rewrite !append_assoc. reflexivity.
Qed.

End Runs.

(** ** Rendering the credentials *)

(** C1, as stated, fails on lines 15 to 17: for the credential set
    [{a, b, c}] the text written is not just the three [KEY=VALUE]
    lines, because the [\n] closing the third f-string adds an empty
    fourth line. *)
Lemma presentCredentials_abc_has_fourth_line :
  lines (written (presentCredentials (mkCreds "a" "b" "c")) tt)
  <> [ "POLYMARKET_API_KEY=a"; "POLYMARKET_SECRET=b";
       "POLYMARKET_PASSPHRASE=c" ].
Proof. vm_compute. discriminate. Qed.

(** C1, amended: [presentCredentials] applied to [{a, b, c}] writes the
    lines [POLYMARKET_API_KEY=a], [POLYMARKET_SECRET=b] and
    [POLYMARKET_PASSPHRASE=c], in that order, followed by one empty line;
    for every credential set the step returns normally, leaves the venue
    untouched and appends exactly its three writes, whose text is the
    three [KEY=VALUE] lines and the empty line. *)
Theorem presentCredentials_output :
  lines (written (presentCredentials (mkCreds "a" "b" "c")) tt)
    = [ "POLYMARKET_API_KEY=a"; "POLYMARKET_SECRET=b";
        "POLYMARKET_PASSPHRASE=c"; "" ]
  /\ (forall (W : Type) (creds : ApiCreds) (s : World W),
        presentCredentials creds s =
          (Ok tt,
           mkWorld (venue s)
             (trace s ++
              [ Out ("POLYMARKET_API_KEY=" ++ api_key creds ++ LF);
                Out ("POLYMARKET_SECRET=" ++ api_secret creds ++ LF);
                Out ("POLYMARKET_PASSPHRASE=" ++ api_passphrase creds
                     ++ LF ++ LF) ])))
  /\ (forall (W : Type) (creds : ApiCreds) (w : W),
        written (presentCredentials creds) w
          = unlines (env_lines creds ++ [""])).
Proof.
  split; [reflexivity|]. split.
  - intros W creds s.
    unfold presentCredentials, bind, print, emit; cbn.
    rewrite <- !app_assoc, !append_assoc. reflexivity.
  - intros W creds w.
    unfold written, presentCredentials, bind, print, emit; cbn.
    rewrite !append_assoc. reflexivity.
Qed.

(** The second rendering, lines 20 to 22, writes the three [KEY=VALUE]
    lines and nothing after them. *)
Lemma presentCredentials_again_output (W : Type) (creds : ApiCreds) (w : W) :
  fst (presentCredentials_again creds (mkWorld w [])) = Ok tt
  /\ written (presentCredentials_again creds) w = unlines (env_lines creds).
Proof.
  unfold written, presentCredentials_again, bind, print, emit; cbn.
  split; [reflexivity|]. rewrite !append_assoc. reflexivity.
Qed.

(** The three [KEY=VALUE] lines are such lines, whatever the values. *)
Lemma env_lines_key_value (c : ApiCreds) :
  filter is_key_value_line (env_lines c) = env_lines c.
Proof. reflexivity. Qed.

(** C2: in a successful run the output is the fixed progress and banner
    lines, the three [KEY=VALUE] lines, the fixed lines that introduce
    the second rendering, and the same three lines again, character for
    character; none of the fixed lines is a [KEY=VALUE] line, so the
    triplet is printed exactly twice.  When the values hold no line
    feed, the [KEY=VALUE] lines of the output are the three lines
    followed by the three lines. *)
Theorem credentials_printed_twice (W : Type) (lib : ClobLibrary W)
    (w w1 w2 : W) (c : ApiCreds) :
  lib_init lib script_client w = (Ok tt, w1) ->
  lib_create_or_derive lib script_client w1 = (Ok c, w2) ->
  stdout (run_script lib w)
    = unlines (progress_lines ++ success_lines) ++ unlines (env_lines c)
      ++ unlines update_lines ++ unlines (env_lines c)
  /\ filter is_key_value_line (progress_lines ++ success_lines ++ update_lines)
     = []
  /\ (forallb no_newline (env_lines c) = true ->
      filter is_key_value_line (lines (stdout (run_script lib w)))
        = (env_lines c ++ env_lines c)%list).
Proof.
  intros H1 H2.
  destruct (run_succeeds lib w w1 c w2 H1 H2) as [Hout _].
  rewrite Hout. split; [|split].
  - rewrite <- !unlines_app, <- !app_assoc. reflexivity.
  - reflexivity.
  - intros Hnl. rewrite lines_unlines.
    + rewrite !filter_app, !env_lines_key_value. reflexivity.
    + rewrite !forallb_app, Hnl. reflexivity.
Qed.

Lemma credentials_printed_twice_witness :
  stdout (run_script (venue_137 (mkCreds "k" "s" "p")) tt)
    = unlines (progress_lines ++ success_lines)
      ++ unlines (env_lines (mkCreds "k" "s" "p"))
      ++ unlines update_lines ++ unlines (env_lines (mkCreds "k" "s" "p"))
  /\ filter is_key_value_line
       (lines (stdout (run_script (venue_137 (mkCreds "k" "s" "p")) tt)))
     = [ "POLYMARKET_API_KEY=k"; "POLYMARKET_SECRET=s";
         "POLYMARKET_PASSPHRASE=p";
         "POLYMARKET_API_KEY=k"; "POLYMARKET_SECRET=s";
         "POLYMARKET_PASSPHRASE=p" ].
Proof.
  destruct (credentials_printed_twice unit (venue_137 (mkCreds "k" "s" "p"))
              tt tt tt (mkCreds "k" "s" "p") eq_refl eq_refl)
    as [Hout [_ Hlines]].
  split; [exact Hout | exact (Hlines eq_refl)].
Defined.

(** ** Failure of the derive call *)

(** C3: when the derive call raises, the run ends with that exception;
    the derive call is the last thing the run did; standard output holds
    the two progress lines only: no [KEY=VALUE] line and no part of a
    credential set. *)
Theorem derive_failure_prints_no_credentials (W : Type) (lib : ClobLibrary W)
    (w w1 w2 : W) (e : PyExc) :
  lib_init lib script_client w = (Ok tt, w1) ->
  lib_create_or_derive lib script_client w1 = (Raise e, w2) ->
  fst (main lib (mkWorld w [])) = Raise e
  /\ last (events (run_script lib w)) (Out "") = Derive script_client
  /\ lines (stdout (run_script lib w)) = progress_lines
  /\ filter is_key_value_line (lines (stdout (run_script lib w))) = []
  /\ contains "POLYMARKET_" (stdout (run_script lib w)) = false.
Proof.
  intros H1 H2.
  rewrite (main_derive_raises lib w w1 e w2 H1 H2).
  rewrite (run_derive_raises lib w w1 e w2 H1 H2).
  repeat split.
Qed.

Lemma derive_failure_prints_no_credentials_witness :
  fst (main (scripted_lib (Ok tt) (Raise NetworkError)) (mkWorld tt []))
    = Raise NetworkError
  /\ last (events (run_script (scripted_lib (Ok tt) (Raise NetworkError)) tt))
          (Out "") = Derive script_client
  /\ lines (stdout (run_script (scripted_lib (Ok tt) (Raise NetworkError)) tt))
     = progress_lines
  /\ filter is_key_value_line
       (lines (stdout (run_script (scripted_lib (Ok tt) (Raise NetworkError)) tt)))
     = []
  /\ contains "POLYMARKET_"
       (stdout (run_script (scripted_lib (Ok tt) (Raise NetworkError)) tt))
     = false.
Proof.
  apply (derive_failure_prints_no_credentials unit
           (scripted_lib (Ok tt) (Raise NetworkError)) tt tt tt NetworkError);
    reflexivity.
Defined.

(** ** A signing key the library rejects *)

(** C5, as stated, fails: when the derive call rejects the key with
    [AuthenticationError], the run does fail with that error, but
    standard output is not empty: the two progress lines of lines 8 and
    11 were printed before the call. *)
Lemma rejected_key_run_has_output :
  fst (main (scripted_lib (Ok tt) (Raise AuthenticationError)) (mkWorld tt []))
    = Raise AuthenticationError
  /\ stdout (run_script (scripted_lib (Ok tt) (Raise AuthenticationError)) tt)
     <> "".
Proof. split; [reflexivity | vm_compute; discriminate]. Qed.

(** C5, amended: when the library refuses the run with an exception [e]
    (raised by the constructor or by the derive call;
    [AuthenticationError] for a rejected key), the run fails with [e],
    the exit status is 1 and not 0, standard error carries a report that
    is not empty, and standard output holds only progress lines printed
    before the failing call, none of them a [KEY=VALUE] line. *)
Theorem rejected_key_run (W : Type) (lib : ClobLibrary W) (w : W) (e : PyExc) :
  library_error lib w = Some e ->
  fst (main lib (mkWorld w [])) = Raise e
  /\ exit_code (run_script lib w) = 1%Z
  /\ exit_code (run_script lib w) <> 0%Z
  /\ stderr (run_script lib w) = traceback e
  /\ stderr (run_script lib w) <> ""
  /\ (lines (stdout (run_script lib w)) = firstn 1 progress_lines
      \/ lines (stdout (run_script lib w)) = progress_lines)
  /\ filter is_key_value_line (lines (stdout (run_script lib w))) = [].
Proof.
  unfold library_error.
  destruct (lib_init lib script_client w) as [[[]|e0] w1] eqn:H1.
  - destruct (lib_create_or_derive lib script_client w1) as [[c|e1] w2] eqn:H2;
      [discriminate|].
    intros [= <-].
    rewrite (main_derive_raises lib w w1 e1 w2 H1 H2).
    rewrite (run_derive_raises lib w w1 e1 w2 H1 H2).
    repeat split; try discriminate. right. reflexivity.
  - intros [= <-].
    rewrite (main_init_raises lib w e0 w1 H1).
    rewrite (run_init_raises lib w e0 w1 H1).
    repeat split; try discriminate. left. reflexivity.
Qed.

Lemma rejected_key_run_witness :
  fst (main (scripted_lib (Ok tt) (Raise AuthenticationError)) (mkWorld tt []))
    = Raise AuthenticationError
  /\ exit_code (run_script (scripted_lib (Ok tt) (Raise AuthenticationError)) tt)
     = 1%Z
  /\ filter is_key_value_line
       (lines (stdout
                 (run_script (scripted_lib (Ok tt) (Raise AuthenticationError)) tt)))
     = [].
Proof.
  destruct (rejected_key_run unit
              (scripted_lib (Ok tt) (Raise AuthenticationError)) tt
              AuthenticationError eq_refl)
    as [Hres [Hexit [_ [_ [_ [_ Hkv]]]]]].
  split; [exact Hres | split; [exact Hexit | exact Hkv]].
Defined.

(** ** The end-to-end scenario *)

(** C6: when the venue, addressed at [https://clob.polymarket.com] with
    chain id 137, returns [{K1, S1, P1}], the run calls the library
    twice, the constructor with that endpoint and chain id and then the
    derive call on that client, prints the three values as [KEY=VALUE]
    lines (twice), writes nothing to standard error and exits with
    status 0. *)
Theorem end_to_end_K1_S1_P1 (W : Type) (lib : ClobLibrary W) (w w1 w2 : W) :
  lib_init lib (mkClient "https://clob.polymarket.com" 137 private_key) w
    = (Ok tt, w1) ->
  lib_create_or_derive lib
      (mkClient "https://clob.polymarket.com" 137 private_key) w1
    = (Ok (mkCreds "K1" "S1" "P1"), w2) ->
  library_calls (events (run_script lib w))
    = [ Construct (mkClient "https://clob.polymarket.com" 137 private_key);
        Derive (mkClient "https://clob.polymarket.com" 137 private_key) ]
  /\ lines (stdout (run_script lib w))
     = [ "[*] Connecting to Polymarket CLOB...";
         "[*] Deriving API credentials...";
         "";
         "SUCCESS! Your Polymarket CLOB credentials:";
         "";
         "POLYMARKET_API_KEY=K1";
         "POLYMARKET_SECRET=S1";
         "POLYMARKET_PASSPHRASE=P1";
         "";
         "Update your .env.local file with:";
         "POLYMARKET_API_KEY=K1";
         "POLYMARKET_SECRET=S1";
         "POLYMARKET_PASSPHRASE=P1" ]
  /\ stderr (run_script lib w) = ""
  /\ exit_code (run_script lib w) = 0%Z.
Proof.
  intros H1 H2.
  destruct (run_succeeds lib w w1 (mkCreds "K1" "S1" "P1") w2 H1 H2)
    as [Hout [Herr [Hexit Hcalls]]].
  rewrite Hout, Herr, Hexit, Hcalls.
  repeat split.
Qed.

Lemma end_to_end_K1_S1_P1_witness :
  library_calls (events (run_script (venue_137 (mkCreds "K1" "S1" "P1")) tt))
    = [ Construct (mkClient "https://clob.polymarket.com" 137 private_key);
        Derive (mkClient "https://clob.polymarket.com" 137 private_key) ]
  /\ exit_code (run_script (venue_137 (mkCreds "K1" "S1" "P1")) tt) = 0%Z.
Proof.
  destruct (end_to_end_K1_S1_P1 unit (venue_137 (mkCreds "K1" "S1" "P1"))
              tt tt tt eq_refl eq_refl)
    as [Hcalls [_ [_ Hexit]]].
  split; [exact Hcalls | exact Hexit].
Defined.

(** ** How often the derive call is issued *)

(** C7, as stated, fails: a run in which the constructor of line 9
    raises never reaches line 12 and issues no derive call at all. *)
Lemma no_derive_call_when_constructor_raises :
  derive_calls
    (events (run_script
               (scripted_lib (Raise ConstructionError)
                             (Ok (mkCreds "K1" "S1" "P1"))) tt))
  <> 1.
Proof. vm_compute. discriminate. Qed.

(** C7, amended: every run, successful or failed, issues the derive
    call exactly once when the client of line 9 was constructed and not
    at all otherwise; so never more than once, and a failed derive call
    is not repeated. *)
Theorem derive_called_at_most_once (W : Type) (lib : ClobLibrary W) (w : W) :
  derive_calls (events (run_script lib w))
    = (if constructed lib w then 1 else 0)
  /\ derive_calls (events (run_script lib w)) <= 1.
Proof.
  unfold constructed.
  destruct (lib_init lib script_client w) as [[[]|e0] w1] eqn:H1.
  - destruct (lib_create_or_derive lib script_client w1) as [[c|e1] w2] eqn:H2.
    + unfold run_script. rewrite (main_succeeds lib w w1 c w2 H1 H2).
      cbn. split; [reflexivity | lia].
    + rewrite (run_derive_raises lib w w1 e1 w2 H1 H2).
      cbn. split; [reflexivity | lia].
  - rewrite (run_init_raises lib w e0 w1 H1).
    cbn. split; [reflexivity | lia].
Qed.

(** ** Idempotence of the derivation *)

Section DeriveCredentials.

Context {W : Type}.
Variable lib : ClobLibrary W.

(** [deriveCredentials] is the constructor call followed by the derive
    call, on the client built from its three arguments. *)
Lemma deriveCredentials_calls signingKey networkId endpoint
      (s : World W) w1 r w2 :
  lib_init lib (mkClient endpoint networkId signingKey) (venue s)
    = (Ok tt, w1) ->
  lib_create_or_derive lib (mkClient endpoint networkId signingKey) w1
    = (r, w2) ->
  deriveCredentials lib signingKey networkId endpoint s =
    (r, mkWorld w2
          (trace s ++ [ Construct (mkClient endpoint networkId signingKey);
                        Derive (mkClient endpoint networkId signingKey) ])).
Proof.
  intros H1 H2.
  unfold deriveCredentials, new_ClobClient, create_or_derive_api_creds,
    bind, emit, call, ret; cbn.
  rewrite H1; cbn. rewrite H2, <- app_assoc. reflexivity.
Qed.

(** X3: the module body talks to the library exactly as
    [deriveCredentials] does on the script's constants, and leaves the
    venue in the same state. *)
Lemma main_derives (w : W) :
  library_calls (trace (snd (main lib (mkWorld w []))))
    = library_calls
        (trace (snd (deriveCredentials lib private_key chain_id
                       "https://clob.polymarket.com" (mkWorld w []))))
  /\ venue (snd (main lib (mkWorld w [])))
     = venue (snd (deriveCredentials lib private_key chain_id
                     "https://clob.polymarket.com" (mkWorld w []))).
Proof.
  destruct (lib_init lib script_client w) as [[[]|e0] w1] eqn:H1.
  - destruct (lib_create_or_derive lib script_client w1) as [r w2] eqn:H2.
    rewrite (deriveCredentials_calls _ _ _ (mkWorld w []) w1 r w2 H1 H2).
    destruct r as [c|e1].
    + rewrite (main_succeeds lib w w1 c w2 H1 H2). split; reflexivity.
    + rewrite (main_derive_raises lib w w1 e1 w2 H1 H2). split; reflexivity.
  - rewrite (main_init_raises lib w e0 w1 H1).
    unfold deriveCredentials, new_ClobClient, bind, emit, call; cbn.
    fold script_client. rewrite H1. split; reflexivity.
Qed.

(** The venue's side of the contract: [stored w k] is the credential
    set the venue holds for signing key [k]. *)
Variable stored : W -> string -> option ApiCreds.

(** Building a client succeeds and changes no stored set. *)
Hypothesis session_keeps_store : forall cl w,
  exists w', lib_init lib cl w = (Ok tt, w')
             /\ forall k, stored w' k = stored w k.

(** Derive: the stored set is returned as it is. *)
Hypothesis derive_returns_stored : forall cl w c,
  stored w (client_key cl) = Some c ->
  lib_create_or_derive lib cl w = (Ok c, w).

(** Create: with no stored set, one is issued and stored. *)
Hypothesis create_stores : forall cl w,
  stored w (client_key cl) = None ->
  exists c w', lib_create_or_derive lib cl w = (Ok c, w')
               /\ stored w' (client_key cl) = Some c.

(** C8: against a venue with create-or-derive semantics, two calls of
    [deriveCredentials] with the same signing key, one after the
    other, both return, and return the same triplet. *)
Theorem deriveCredentials_idempotent signingKey networkId endpoint
        (s : World W) :
  exists c s1 s2,
    deriveCredentials lib signingKey networkId endpoint s = (Ok c, s1)
    /\ deriveCredentials lib signingKey networkId endpoint s1 = (Ok c, s2).
Proof.
  set (cl := mkClient endpoint networkId signingKey).
  destruct (session_keeps_store cl (venue s)) as [wa [Ha Hsa]].
  assert (Hfirst : exists c wb,
             lib_create_or_derive lib cl wa = (Ok c, wb)
             /\ stored wb signingKey = Some c).
  { destruct (stored wa (client_key cl)) as [c|] eqn:E.
    - exists c, wa. split; [now apply derive_returns_stored | exact E].
    - destruct (create_stores cl wa E) as [c [wb [Hb Hsb]]].
      exists c, wb. split; assumption. }
  destruct Hfirst as [c [wb [Hb Hsb]]].
  destruct (session_keeps_store cl wb) as [wc [Hc Hsc]].
  assert (Hd : lib_create_or_derive lib cl wc = (Ok c, wc)).
  { apply derive_returns_stored. cbn. rewrite Hsc. exact Hsb. }
  eexists c, _, _. split.
  - apply (deriveCredentials_calls _ _ _ s wa (Ok c) wb Ha Hb).
  - apply (deriveCredentials_calls _ _ _ _ wc (Ok c) wc); [exact Hc | exact Hd].
Qed.

End DeriveCredentials.

(** The mock venue has create-or-derive semantics. *)
Lemma mock_venue_session cl (st : Store) :
  exists st', lib_init mock_venue cl st = (Ok tt, st')
              /\ forall k, stored_creds st' k = stored_creds st k.
Proof. exists st. split; reflexivity. Qed.

Lemma mock_venue_derive cl (st : Store) c :
  stored_creds st (client_key cl) = Some c ->
  lib_create_or_derive mock_venue cl st = (Ok c, st).
Proof. intros H. cbn. rewrite H. reflexivity. Qed.

Lemma mock_venue_create cl (st : Store) :
  stored_creds st (client_key cl) = None ->
  exists c st', lib_create_or_derive mock_venue cl st = (Ok c, st')
                /\ stored_creds st' (client_key cl) = Some c.
Proof.
  intros H. cbn. rewrite H.
  eexists _, _. split; [reflexivity|].
  cbn. rewrite String.eqb_refl. reflexivity.
Qed.

Lemma deriveCredentials_idempotent_witness :
  exists c s1 s2,
    deriveCredentials mock_venue private_key 137 "https://clob.polymarket.com"
      (mkWorld [] []) = (Ok c, s1)
    /\ deriveCredentials mock_venue private_key 137
         "https://clob.polymarket.com" s1 = (Ok c, s2).
Proof.
  exact (deriveCredentials_idempotent mock_venue stored_creds
           mock_venue_session mock_venue_derive mock_venue_create
           private_key 137%Z "https://clob.polymarket.com" (mkWorld [] [])).
Defined.

(** On the mock venue the triplet of both calls is the first one issued. *)
Example mock_venue_twice :
  let first := deriveCredentials mock_venue private_key 137
                 "https://clob.polymarket.com" (mkWorld [] []) in
  fst first = Ok (issue 0)
  /\ fst (deriveCredentials mock_venue private_key 137
            "https://clob.polymarket.com" (snd first)) = Ok (issue 0).
Proof. split; reflexivity. Qed.

(** Without the venue's semantics nothing in the script makes the two
    triplets equal. *)
Example forgetful_venue_twice :
  let first := deriveCredentials forgetful_venue private_key 137
                 "https://clob.polymarket.com" (mkWorld 0 []) in
  fst first = Ok (issue 0)
  /\ fst (deriveCredentials forgetful_venue private_key 137
            "https://clob.polymarket.com" (snd first)) = Ok (issue 1).
Proof. split; reflexivity. Qed.

(** ** The signing key and the output *)

(** A string without a line feed occurs in a text made of lines only
    inside one of the lines. *)
Lemma contains_unlines (k : string) (ls : list string) :
  occurs "010" k = false -> k <> "" ->
  contains k (unlines ls) = existsb (contains k) ls.
Proof.
  intros Hnl Hne.
  induction ls as [|l ls IH].
  - cbn. destruct k; [contradiction | reflexivity].
  - change (unlines (l :: ls)) with (l ++ String "010" (unlines ls)).
    rewrite (contains_cut _ _ _ _ Hnl), IH. reflexivity.
Qed.

(** A string without [=] occurs in [NAME=value] only inside the name or
    inside the value. *)
Lemma contains_key_value (k name value : string) :
  occurs "=" k = false ->
  contains k (name ++ "=" ++ value) = contains k name || contains k value.
Proof. intros H. exact (contains_cut "=" k name value H). Qed.

(** The signing key is in no [KEY=VALUE] line unless it is in a value. *)
Lemma env_lines_free_of_key (c : ApiCreds) :
  creds_free_of private_key c = true ->
  existsb (contains private_key) (env_lines c) = false.
Proof.
  unfold creds_free_of. intros H.
  apply andb_true_iff in H as [H Hp].
  apply andb_true_iff in H as [Hk Hs].
  apply negb_true_iff in Hk, Hs, Hp.
  unfold env_lines, existsb.
  change ("POLYMARKET_API_KEY=" ++ api_key c)
    with ("POLYMARKET_API_KEY" ++ "=" ++ api_key c).
  change ("POLYMARKET_SECRET=" ++ api_secret c)
    with ("POLYMARKET_SECRET" ++ "=" ++ api_secret c).
  change ("POLYMARKET_PASSPHRASE=" ++ api_passphrase c)
    with ("POLYMARKET_PASSPHRASE" ++ "=" ++ api_passphrase c).
  rewrite !contains_key_value by reflexivity.
  rewrite Hk, Hs, Hp. reflexivity.
Qed.

(** C9: in every run in which the credential set returned by the
    library (if any) does not contain the signing key in one of its
    fields, the signing key of line 5 occurs nowhere in what the run
    writes to standard output, hence in none of its lines; the key goes
    to the constructor of line 9 and nowhere else. *)
Theorem signing_key_not_printed (W : Type) (lib : ClobLibrary W) (w : W) :
  returned_creds_free_of private_key lib w = true ->
  contains private_key (stdout (run_script lib w)) = false
  /\ Forall (fun l => contains private_key l = false)
            (lines (stdout (run_script lib w))).
Proof.
  intros H.
  assert (Hout : contains private_key (stdout (run_script lib w)) = false).
  { unfold returned_creds_free_of in H.
    destruct (lib_init lib script_client w) as [[[]|e0] w1] eqn:H1.
    - destruct (lib_create_or_derive lib script_client w1)
        as [[c|e1] w2] eqn:H2.
      + destruct (run_succeeds lib w w1 c w2 H1 H2) as [-> _].
        rewrite contains_unlines by (reflexivity || discriminate).
        rewrite !existsb_app, (env_lines_free_of_key c H). reflexivity.
      + rewrite (run_derive_raises lib w w1 e1 w2 H1 H2). reflexivity.
    - rewrite (run_init_raises lib w e0 w1 H1). reflexivity. }
  split; [exact Hout | exact (contains_lines _ _ Hout)].
Qed.

Lemma signing_key_not_printed_witness :
  contains private_key
    (stdout (run_script (venue_137 (mkCreds "K1" "S1" "P1")) tt)) = false
  /\ Forall (fun l => contains private_key l = false)
            (lines (stdout (run_script (venue_137 (mkCreds "K1" "S1" "P1")) tt))).
Proof.
  exact (signing_key_not_printed unit (venue_137 (mkCreds "K1" "S1" "P1")) tt
           eq_refl).
Defined.

(** The hypothesis of C9 is needed: a venue that echoes the signing key
    in a credential field gets it printed. *)
Example echoed_key_is_printed :
  contains private_key
    (stdout (run_script (venue_137 (mkCreds private_key "S1" "P1")) tt)) = true.
Proof. vm_compute. reflexivity. Qed.

(** ** The output as a function of the credentials *)

(** C10: two runs, against any two libraries in any states, in which
    the derive call returns the same credential set write the same
    characters to standard output. *)
Theorem output_determined_by_credentials
    (W V : Type) (lib1 : ClobLibrary W) (lib2 : ClobLibrary V)
    (w w1 w2 : W) (v v1 v2 : V) (c : ApiCreds) :
  lib_init lib1 script_client w = (Ok tt, w1) ->
  lib_create_or_derive lib1 script_client w1 = (Ok c, w2) ->
  lib_init lib2 script_client v = (Ok tt, v1) ->
  lib_create_or_derive lib2 script_client v1 = (Ok c, v2) ->
  stdout (run_script lib1 w) = stdout (run_script lib2 v).
Proof.
  intros H1 H2 H3 H4.
  destruct (run_succeeds lib1 w w1 c w2 H1 H2) as [-> _].
  destruct (run_succeeds lib2 v v1 c v2 H3 H4) as [-> _].
  reflexivity.
Qed.

Lemma output_determined_by_credentials_witness :
  stdout (run_script mock_venue [(private_key, mkCreds "K1" "S1" "P1")])
  = stdout (run_script (venue_137 (mkCreds "K1" "S1" "P1")) tt).
Proof.
  apply (output_determined_by_credentials Store unit
           mock_venue (venue_137 (mkCreds "K1" "S1" "P1"))
           [(private_key, mkCreds "K1" "S1" "P1")]
           [(private_key, mkCreds "K1" "S1" "P1")]
           [(private_key, mkCreds "K1" "S1" "P1")]
           tt tt tt (mkCreds "K1" "S1" "P1"));
    reflexivity.
Defined.

(** * Further properties of the script *)

(** ** The banner and the exit status *)


(** ** What the library is asked *)

(** X2: every run starts by printing the connecting line and then building
    the client with the public endpoint, chain id 137 and the key of
    line 5; the derive call, when there is one, is made on that same
    client, after the constructor; the library is asked nothing else. *)
Theorem library_calls_of_run (W : Type) (lib : ClobLibrary W) (w : W) :
  firstn 2 (events (run_script lib w))
    = [ Out ("[*] Connecting to Polymarket CLOB..." ++ LF);
        Construct (mkClient "https://clob.polymarket.com" 137 private_key) ]
  /\ library_calls (events (run_script lib w))
     = Construct script_client
       :: (if constructed lib w then [Derive script_client] else []).
Proof.
  unfold constructed.
  destruct (lib_init lib script_client w) as [[[]|e0] w1] eqn:H1.
  - destruct (lib_create_or_derive lib script_client w1) as [[c|e1] w2] eqn:H2.
    + unfold run_script. rewrite (main_succeeds lib w w1 c w2 H1 H2).
      split; reflexivity.
    + rewrite (run_derive_raises lib w w1 e1 w2 H1 H2). split; reflexivity.
  - rewrite (run_init_raises lib w e0 w1 H1). split; reflexivity.
Qed.

(** ** Reading the credentials back from the output *)

Lemma env_lines_single_line (c : ApiCreds) :
  single_line_creds c = true -> forallb no_newline (env_lines c) = true.
Proof.
  unfold single_line_creds. intros H.
  apply andb_true_iff in H as [H Hp].
  apply andb_true_iff in H as [Hk Hs].
  unfold env_lines, forallb.
  change (no_newline ("POLYMARKET_API_KEY=" ++ api_key c))
    with (no_newline (api_key c)).
  change (no_newline ("POLYMARKET_SECRET=" ++ api_secret c))
    with (no_newline (api_secret c)).
  change (no_newline ("POLYMARKET_PASSPHRASE=" ++ api_passphrase c))
    with (no_newline (api_passphrase c)).
  rewrite Hk, Hs, Hp. reflexivity.
Qed.

Lemma env_lines_inj (c c' : ApiCreds) :
  env_lines c = env_lines c' -> c = c'.
Proof.
  destruct c as [k s p], c' as [k' s' p'].
  unfold env_lines; cbn.
  intros H. injection H as Hk Hs Hp. subst. reflexivity.
Qed.

(** The lines of a successful run, for values without line feeds. *)
Lemma lines_of_successful_run (W : Type) (lib : ClobLibrary W)
    (w w1 w2 : W) (c : ApiCreds) :
  lib_init lib script_client w = (Ok tt, w1) ->
  lib_create_or_derive lib script_client w1 = (Ok c, w2) ->
  single_line_creds c = true ->
  lines (stdout (run_script lib w))
    = (progress_lines ++ success_lines ++ env_lines c
       ++ update_lines ++ env_lines c)%list.
Proof.
  intros H1 H2 Hc.
  destruct (run_succeeds lib w w1 c w2 H1 H2) as [-> _].
  apply lines_unlines.
  rewrite !forallb_app, (env_lines_single_line c Hc). reflexivity.
Qed.

(** X4: the output of a successful run determines the credential set, as
    long as no value holds a line feed: two runs that print the same
    text were given the same triplet. *)
Theorem output_determines_credentials
    (W V : Type) (lib1 : ClobLibrary W) (lib2 : ClobLibrary V)
    (w w1 w2 : W) (v v1 v2 : V) (c c' : ApiCreds) :
  lib_init lib1 script_client w = (Ok tt, w1) ->
  lib_create_or_derive lib1 script_client w1 = (Ok c, w2) ->
  lib_init lib2 script_client v = (Ok tt, v1) ->
  lib_create_or_derive lib2 script_client v1 = (Ok c', v2) ->
  single_line_creds c = true ->
  single_line_creds c' = true ->
  stdout (run_script lib1 w) = stdout (run_script lib2 v) ->
  c = c'.
Proof.
  intros H1 H2 H3 H4 Hc Hc' Hout.
  apply (f_equal lines) in Hout.
  rewrite (lines_of_successful_run W lib1 w w1 w2 c H1 H2 Hc) in Hout.
  rewrite (lines_of_successful_run V lib2 v v1 v2 c' H3 H4 Hc') in Hout.
  apply app_inv_head in Hout. apply app_inv_head in Hout.
  apply env_lines_inj.
  exact (f_equal (firstn 3) Hout).
Qed.

Lemma output_determines_credentials_witness :
  mkCreds "K1" "S1" "P1" = mkCreds "K1" "S1" "P1".
Proof.
  apply (output_determines_credentials Store unit
           mock_venue (venue_137 (mkCreds "K1" "S1" "P1"))
           [(private_key, mkCreds "K1" "S1" "P1")]
           [(private_key, mkCreds "K1" "S1" "P1")]
           [(private_key, mkCreds "K1" "S1" "P1")]
           tt tt tt);
    reflexivity.
Defined.

(** ** Values are printed as they are *)

Lemma starts_with_refl (k : string) : starts_with k k = true.
Proof.
  induction k as [|a k IH]; [reflexivity|].
  cbn. rewrite Ascii.eqb_refl, IH. reflexivity.
Qed.

Lemma contains_refl (k : string) : contains k k = true.
Proof. destruct k; cbn; rewrite ?Ascii.eqb_refl, ?starts_with_refl; reflexivity. Qed.

Lemma contains_app_l (k s t : string) :
  contains k s = true -> contains k (s ++ t) = true.
Proof.
  induction s as [|b s IH]; intros H.
  - rewrite contains_empty in H.
    destruct k; [|discriminate].
    destruct t; reflexivity.
  - change (starts_with k (String b s) || contains k s = true) in H.
    change (starts_with k (String b (s ++ t)) || contains k (s ++ t) = true).
    apply orb_true_iff in H as [H|H].
    + pose proof (starts_with_app _ _ t H) as Hq.
      change (String b s ++ t) with (String b (s ++ t)) in Hq.
      rewrite Hq. reflexivity.
    + rewrite (IH H). apply orb_true_r.
Qed.

Lemma contains_app_r (k s t : string) :
  contains k t = true -> contains k (s ++ t) = true.
Proof.
  intros H. induction s as [|b s IH]; [exact H|].
  change (starts_with k (String b (s ++ t)) || contains k (s ++ t) = true).
  rewrite IH. apply orb_true_r.
Qed.

(** What occurs in a line occurs in the text. *)
Lemma contains_unlines_In (k l : string) (ls : list string) :
  In l ls -> contains k l = true -> contains k (unlines ls) = true.
Proof.
  intros Hin Hk.
  induction ls as [|a ls IH]; [contradiction|].
  change (unlines (a :: ls)) with (a ++ LF ++ unlines ls).
  destruct Hin as [->|Hin].
  - apply contains_app_l, Hk.
  - apply contains_app_r, contains_app_r, IH, Hin.
Qed.

(** X5: in a successful run each of the three values, the secret and the
    passphrase included, is part of what is written to standard
    output. *)
Theorem credentials_are_in_the_output (W : Type) (lib : ClobLibrary W)
    (w w1 w2 : W) (c : ApiCreds) :
  lib_init lib script_client w = (Ok tt, w1) ->
  lib_create_or_derive lib script_client w1 = (Ok c, w2) ->
  contains (api_key c) (stdout (run_script lib w)) = true
  /\ contains (api_secret c) (stdout (run_script lib w)) = true
  /\ contains (api_passphrase c) (stdout (run_script lib w)) = true.
Proof.
  intros H1 H2.
  destruct (run_succeeds lib w w1 c w2 H1 H2) as [-> _].
  repeat split.
  - apply (contains_unlines_In _ ("POLYMARKET_API_KEY=" ++ api_key c)).
    + cbn. tauto.
    + apply contains_app_r, contains_refl.
  - apply (contains_unlines_In _ ("POLYMARKET_SECRET=" ++ api_secret c)).
    + cbn. tauto.
    + apply contains_app_r, contains_refl.
  - apply (contains_unlines_In _ ("POLYMARKET_PASSPHRASE=" ++ api_passphrase c)).
    + cbn. tauto.
    + apply contains_app_r, contains_refl.
Qed.

Lemma credentials_are_in_the_output_witness :
  contains "S1" (stdout (run_script (venue_137 (mkCreds "K1" "S1" "P1")) tt))
  = true.
Proof.
  exact (proj1 (proj2 (credentials_are_in_the_output unit
                         (venue_137 (mkCreds "K1" "S1" "P1")) tt tt tt
                         (mkCreds "K1" "S1" "P1") eq_refl eq_refl))).
Defined.

(** ** A line feed inside a value *)

Lemma lines_LF_nonempty (s : string) : lines (s ++ LF) <> [].
Proof.
  induction s as [|c s IH]; cbn; [discriminate|].
  destruct (Ascii.eqb c "010"); [discriminate|].
  destruct (lines (s ++ LF)); [contradiction | discriminate].
Qed.

(** The lines before a line feed and the lines after it. *)
Lemma lines_app_LF (s t : string) :
  lines (s ++ LF ++ t) = (lines (s ++ LF) ++ lines t)%list.
Proof.
  change (LF ++ t) with (String "010"%char t).
  induction s as [|c s IH]; [reflexivity|].
  cbn. destruct (Ascii.eqb c "010").
  - rewrite IH. reflexivity.
  - rewrite IH.
    pose proof (lines_LF_nonempty s) as Hne.
    destruct (lines (s ++ LF)); [contradiction | reflexivity].
Qed.

Lemma lines_unlines_tail (x l : string) (ls : list string) :
  no_newline l = true ->
  In (x ++ LF ++ l) ls -> In l (lines (unlines ls)).
Proof.
  intros Hl Hin.
  induction ls as [|a ls IH]; [contradiction|].
  change (unlines (a :: ls)) with (a ++ LF ++ unlines ls).
  rewrite lines_app_LF. apply in_or_app.
  destruct Hin as [->|Hin]; [left | right; exact (IH Hin)].
  rewrite !append_assoc, lines_app_LF. apply in_or_app. right.
  change (l ++ LF) with (l ++ LF ++ "").
  rewrite (lines_cons l "" Hl). left. reflexivity.
Qed.

(** X6: values are not escaped: when a value of the returned credential set
    holds a line feed, what follows it (up to the next line feed) comes
    out as a line of its own in the output of a successful run. *)
Theorem line_feed_in_value_adds_a_line (W : Type) (lib : ClobLibrary W)
    (w w1 w2 : W) (c : ApiCreds) (v l : string) :
  lib_init lib script_client w = (Ok tt, w1) ->
  lib_create_or_derive lib script_client w1 = (Ok c, w2) ->
  In (v ++ LF ++ l) [api_key c; api_secret c; api_passphrase c] ->
  no_newline l = true ->
  In l (lines (stdout (run_script lib w))).
Proof.
  intros H1 H2 Hin Hl.
  destruct (run_succeeds lib w w1 c w2 H1 H2) as [-> _].
  destruct Hin as [E|[E|[E|[]]]].
  - apply (lines_unlines_tail ("POLYMARKET_API_KEY=" ++ v) l); [exact Hl|].
    rewrite append_assoc, <- E. cbn. tauto.
  - apply (lines_unlines_tail ("POLYMARKET_SECRET=" ++ v) l); [exact Hl|].
    rewrite append_assoc, <- E. cbn. tauto.
  - apply (lines_unlines_tail ("POLYMARKET_PASSPHRASE=" ++ v) l); [exact Hl|].
    rewrite append_assoc, <- E. cbn. tauto.
Qed.

Lemma line_feed_in_value_adds_a_line_witness :
  In "POLYMARKET_SECRET=other"
     (lines (stdout (run_script
                       (venue_137
                          (mkCreds ("K1" ++ LF ++ "POLYMARKET_SECRET=other")
                                   "S1" "P1")) tt))).
Proof.
  apply (line_feed_in_value_adds_a_line unit
           (venue_137 (mkCreds ("K1" ++ LF ++ "POLYMARKET_SECRET=other")
                               "S1" "P1"))
           tt tt tt
           (mkCreds ("K1" ++ LF ++ "POLYMARKET_SECRET=other") "S1" "P1")
           "K1" "POLYMARKET_SECRET=other");
    [reflexivity | reflexivity | left; reflexivity | reflexivity].
Defined.

Lemma append_self_empty (s t : string) : s ++ t = s -> t = "".
Proof.
  induction s as [|a s IH]; cbn; intros H; [exact H|].
  injection H as H. exact (IH H).
Qed.

(** X7: hence, with line feeds allowed, the output no longer tells which
    triplet was returned: the two different credential sets below give
    the same text, whatever [k], [s1], [s2] and [p] are. *)
Theorem line_feed_makes_output_ambiguous
    (W V : Type) (lib1 : ClobLibrary W) (lib2 : ClobLibrary V)
    (w w1 w2 : W) (v v1 v2 : V) (k s1 s2 p : string) :
  lib_init lib1 script_client w = (Ok tt, w1) ->
  lib_create_or_derive lib1 script_client w1
    = (Ok (mkCreds (k ++ LF ++ "POLYMARKET_SECRET=" ++ s1) s2 p), w2) ->
  lib_init lib2 script_client v = (Ok tt, v1) ->
  lib_create_or_derive lib2 script_client v1
    = (Ok (mkCreds k (s1 ++ LF ++ "POLYMARKET_SECRET=" ++ s2) p), v2) ->
  stdout (run_script lib1 w) = stdout (run_script lib2 v)
  /\ mkCreds (k ++ LF ++ "POLYMARKET_SECRET=" ++ s1) s2 p
     <> mkCreds k (s1 ++ LF ++ "POLYMARKET_SECRET=" ++ s2) p.
Proof.
  intros H1 H2 H3 H4.
  destruct (run_succeeds lib1 w w1 _ w2 H1 H2) as [-> _].
  destruct (run_succeeds lib2 v v1 _ v2 H3 H4) as [-> _].
  split.
  - cbn. rewrite !append_assoc. cbn. reflexivity.
  - intros [= Hk _]. apply append_self_empty in Hk. discriminate Hk.
Qed.

Lemma line_feed_makes_output_ambiguous_witness :
  stdout (run_script
            (venue_137 (mkCreds ("K" ++ LF ++ "POLYMARKET_SECRET=" ++ "A")
                                "B" "P")) tt)
  = stdout (run_script
              (venue_137 (mkCreds "K" ("A" ++ LF ++ "POLYMARKET_SECRET=" ++ "B")
                                  "P")) tt).
Proof.
  exact (proj1 (line_feed_makes_output_ambiguous unit unit
                  (venue_137 (mkCreds ("K" ++ LF ++ "POLYMARKET_SECRET=" ++ "A")
                                      "B" "P"))
                  (venue_137 (mkCreds "K" ("A" ++ LF ++ "POLYMARKET_SECRET=" ++ "B")
                                      "P"))
                  tt tt tt tt tt tt "K" "A" "B" "P"
                  eq_refl eq_refl eq_refl eq_refl)).
Defined.
